(** * WordpressThreeTierStack: the declared resource graph

    A shallow embedding of [lib/wordpress-app-stack.ts].  The constructor of
    [WordpressThreeTierStack] is a straight sequence of declarations made on
    the object under construction ([this]): every [new X(scope, id, props)],
    and [addListener] and [addContainer], declare a construct named [id]
    inside a scope; the other methods ([addIngressRule], [addPortMappings],
    [attachToApplicationTargetGroup], [addTargetGroups],
    [autoScaleTaskCount], [scaleOnCpuUtilization]) change a construct
    declared earlier.  The embedding threads the stack through a state and
    error monad; constructs are referred to by their path of ids below the
    stack, which is how the construct library names them.  The constructs
    the library creates on its own inside the ones declared here are not
    part of the embedding. *)

From Stdlib Require Import Ascii String List ZArith Bool Lia.
Import ListNotations.
Open Scope string_scope.
Open Scope list_scope.
Open Scope Z_scope.

(** ** References and values *)

(** A construct is known by the ids on the way from the stack down to it;
    the stack itself ([this]) is the empty path. *)
Definition Id := string.
Definition Ref := list Id.

Definition this : Ref := [].

Definition Id_eqb (a b : Id) : bool := String.eqb a b.

Fixpoint Ref_eqb (a b : Ref) : bool :=
  match a, b with
  | [], [] => true
  | x :: a', y :: b' => Id_eqb x y && Ref_eqb a' b'
  | _, _ => false
  end.

Module cdk.

(** [cdk.Duration.seconds(n)] and [cdk.Duration.days(n)]. *)
Inductive Duration :=
| seconds (n : Z)
| days (n : Z).

Definition toSeconds (d : Duration) : Z :=
  match d with
  | seconds n => n
  | days n => n * 86400
  end.

(** Attributes of declared resources that are only known after
    deployment; the source reads three of them. *)
Inductive Attribute :=
| dbInstanceEndpointAddress
| loadBalancerDnsName
| distributionDomainName.

(** A string given to a property: a literal of the source, or the
    attribute of a declared construct. *)
Inductive Value :=
| Literal (s : string)
| Token (construct : Ref) (attr : Attribute).

Record CfnOutputProps := {
  value : Value;
  description : string
}.

End cdk.

Module ec2.

Record VpcProps := {
  maxAzs : Z;
  natGateways : Z
}.

Record SecurityGroupProps := {
  vpc : Ref;
  description : string;
  allowAllOutbound : bool
}.

(** [ec2.Peer.anyIpv4()], or a security group passed as the peer. *)
Inductive Peer :=
| anyIpv4
| securityGroup (sg : Ref).

(** [ec2.Port.tcp(n)]. *)
Inductive Port :=
| tcp (port : Z).

(** The three arguments of one [addIngressRule] call. *)
Record IngressRule := {
  peer : Peer;
  connection : Port;
  ruleDescription : string
}.

Inductive SubnetType :=
| PRIVATE_ISOLATED
| PRIVATE_WITH_EGRESS
| PUBLIC.

Record SubnetSelection := {
  subnetType : SubnetType
}.

Inductive InstanceClass := BURSTABLE2 | BURSTABLE3 | STANDARD5.
Inductive InstanceSize := MICRO | SMALL | MEDIUM | LARGE.

(** [ec2.InstanceType.of(class, size)]. *)
Inductive InstanceType :=
| instanceTypeOf (c : InstanceClass) (s : InstanceSize).

End ec2.

Module secretsmanager.

(** The optional fields [secretStringTemplate] and [generateStringKey]
    are what would give the generated secret a JSON shape with named
    fields; an absent field is [None]. *)
Record SecretStringGenerator := {
  secretStringTemplate : option string;
  generateStringKey : option string;
  excludePunctuation : bool;
  passwordLength : Z
}.

Record SecretProps := {
  secretName : string;
  generateSecretString : SecretStringGenerator
}.

End secretsmanager.

Module rds.

Inductive MysqlEngineVersion := VER_5_7 | VER_8_0.

(** [rds.DatabaseInstanceEngine.mysql({ version })]. *)
Inductive DatabaseInstanceEngine :=
| mysql (version : MysqlEngineVersion).

(** [rds.Credentials.fromSecret(secret, username?)]. *)
Inductive Credentials :=
| fromSecret (secret : Ref) (username : option string).

Record DatabaseInstanceProps := {
  engine : DatabaseInstanceEngine;
  instanceType : ec2.InstanceType;
  vpc : Ref;
  vpcSubnets : ec2.SubnetSelection;
  securityGroups : list Ref;
  databaseName : string;
  credentials : Credentials;
  backupRetention : cdk.Duration;
  deletionProtection : bool;
  storageEncrypted : bool
}.

End rds.

Module iam.

(** [new iam.ServicePrincipal(service)]. *)
Inductive Principal :=
| ServicePrincipal (service : string).

Record RoleProps := {
  assumedBy : Principal
}.

End iam.

Module ecs.

Record ClusterProps := {
  vpc : Ref;
  containerInsights : bool
}.

Record FargateTaskDefinitionProps := {
  memoryLimitMiB : Z;
  cpu : Z;
  taskRole : Ref
}.

(** [ecs.ContainerImage.fromRegistry(name)]. *)
Inductive ContainerImage :=
| fromRegistry (name : string).

(** [ecs.LogDrivers.awsLogs({ streamPrefix })]. *)
Inductive LogDriver :=
| awsLogs (streamPrefix : string).

(** [ecs.Secret.fromSecretsManager(secret)]. *)
Inductive Secret :=
| fromSecretsManager (secret : Ref).

(** [environment] and [secrets] are object literals: keys in the order
    written. *)
Record ContainerDefinitionOptions := {
  image : ContainerImage;
  logging : LogDriver;
  environment : list (string * cdk.Value);
  secrets : list (string * Secret)
}.

Record PortMapping := {
  containerPort : Z
}.

Record FargateServiceProps := {
  cluster : Ref;
  taskDefinition : Ref;
  desiredCount : Z;
  securityGroups : list Ref;
  vpcSubnets : ec2.SubnetSelection;
  assignPublicIp : bool;
  healthCheckGracePeriod : cdk.Duration
}.

Record EnableScalingProps := {
  minCapacity : Z;
  maxCapacity : Z
}.

Record CpuUtilizationScalingProps := {
  targetUtilizationPercent : Z;
  scaleInCooldown : cdk.Duration;
  scaleOutCooldown : cdk.Duration
}.

End ecs.

Module elbv2.

Record ApplicationLoadBalancerProps := {
  vpc : Ref;
  internetFacing : bool;
  securityGroup : Ref
}.

Record BaseApplicationListenerProps := {
  port : Z;
  open : bool
}.

Inductive ApplicationProtocol := HTTP | HTTPS.
Inductive TargetType := INSTANCE | IP | LAMBDA.

Record HealthCheck := {
  path : string;
  interval : cdk.Duration
}.

Record ApplicationTargetGroupProps := {
  targetVpc : Ref;
  targetPort : Z;
  protocol : ApplicationProtocol;
  targetType : TargetType;
  healthCheck : HealthCheck
}.

Record AddApplicationTargetGroupsProps := {
  targetGroups : list Ref
}.

(** What a listener does with a request no rule matches: forward it to
    target groups. *)
Inductive ListenerAction :=
| forward (targetGroups : list Ref).

End elbv2.

Module cloudfront.

Inductive OriginProtocolPolicy := HTTP_ONLY | MATCH_VIEWER | HTTPS_ONLY.
Inductive ViewerProtocolPolicy := HTTPS_ONLY_VIEWER | REDIRECT_TO_HTTPS | ALLOW_ALL_VIEWER.
Inductive AllowedMethods := ALLOW_GET_HEAD | ALLOW_GET_HEAD_OPTIONS | ALLOW_ALL.
Inductive CachePolicy := CACHING_OPTIMIZED | CACHING_DISABLED.
Inductive OriginRequestPolicy := ALL_VIEWER | CORS_CUSTOM_ORIGIN.
Inductive PriceClass := PRICE_CLASS_100 | PRICE_CLASS_200 | PRICE_CLASS_ALL.

(** [new origins.LoadBalancerV2Origin(lb, { protocolPolicy })]. *)
Inductive Origin :=
| LoadBalancerV2Origin (loadBalancer : Ref) (protocolPolicy : OriginProtocolPolicy).

Record BehaviorOptions := {
  origin : Origin;
  cachePolicy : CachePolicy;
  viewerProtocolPolicy : ViewerProtocolPolicy;
  allowedMethods : AllowedMethods;
  originRequestPolicy : OriginRequestPolicy;
  compress : bool
}.

Record DistributionProps := {
  defaultBehavior : BehaviorOptions;
  priceClass : PriceClass
}.

End cloudfront.

(** ** Declared constructs

    One constructor per kind of construct the source declares, carrying the
    props it was declared with and whatever later method calls add to it. *)
Inductive Resource :=
| Vpc (p : ec2.VpcProps)
| SecurityGroup (p : ec2.SecurityGroupProps) (ingress : list ec2.IngressRule)
| Secret (p : secretsmanager.SecretProps)
| DatabaseInstance (p : rds.DatabaseInstanceProps)
| Cluster (p : ecs.ClusterProps)
| ApplicationLoadBalancer (p : elbv2.ApplicationLoadBalancerProps)
| ApplicationListener (p : elbv2.BaseApplicationListenerProps)
                      (defaultAction : option elbv2.ListenerAction)
| Role (p : iam.RoleProps)
| FargateTaskDefinition (p : ecs.FargateTaskDefinitionProps)
| ContainerDefinition (p : ecs.ContainerDefinitionOptions)
                      (portMappings : list ecs.PortMapping)
| FargateService (p : ecs.FargateServiceProps)
                 (scaling : option ecs.EnableScalingProps)
                 (policies : list (Id * ecs.CpuUtilizationScalingProps))
| ApplicationTargetGroup (p : elbv2.ApplicationTargetGroupProps)
                         (targets : list Ref)
| Distribution (p : cloudfront.DistributionProps)
| CfnOutput (p : cdk.CfnOutputProps).

(** The constructs of a stack in the order of their declaration. *)
Definition Constructs := list (Ref * Resource).

Fixpoint findConstruct (r : Ref) (cs : Constructs) : option Resource :=
  match cs with
  | [] => None
  | (r', res) :: cs' => if Ref_eqb r r' then Some res else findConstruct r cs'
  end.

(** Replace, in place, the construct at [r]. *)
Fixpoint replaceConstruct (r : Ref) (res : Resource) (cs : Constructs) : Constructs :=
  match cs with
  | [] => []
  | (r', old) :: cs' =>
      if Ref_eqb r r' then (r', res) :: cs'
      else (r', old) :: replaceConstruct r res cs'
  end.

Definition paths (cs : Constructs) : list Ref := map fst cs.

(** What can go wrong.  While declaring, the construct library refuses a
    second child of the same id in one scope and a second enabling of
    scaling on one service; [NoSuchConstruct] and [WrongKind] stand for a
    method called on something that is not a declared construct of the
    expected kind, which the TypeScript types rule out.  The last four are
    what the base class refuses of the stack itself. *)
Inductive Error :=
| DuplicateId (scope : Ref) (id : Id)
| NoSuchConstruct (r : Ref)
| WrongKind (r : Ref)
| ScalingAlreadyEnabled (r : Ref)
| EmptyId
| DuplicateStack (id : Id)
| StackNameTooLong (name : string)
| InvalidStackName (name : string).

Inductive Result (A : Type) :=
| Ok (a : A)
| Throw (e : Error).
Arguments Ok {A} a.
Arguments Throw {A} e.

(** ** The stack under construction *)

Section Construction.

(** The parent scope and [cdk.StackProps] belong to the construct library;
    the constructor hands both to the base class and never looks inside. *)
Variables Construct StackProps : Type.

(** [this]: what [super(scope, id, props)] received, and the constructs
    declared so far. *)
Record Stack := {
  node_scope : Construct;
  node_id : string;
  stack_props : option StackProps;
  constructs : Constructs
}.

Definition withConstructs (s : Stack) (cs : Constructs) : Stack :=
  {| node_scope := node_scope s;
     node_id := node_id s;
     stack_props := stack_props s;
     constructs := cs |}.

(** The stack as [super(scope, id, props)] leaves it once the base class
    has accepted its arguments: [id] is the id the node got, and no
    construct is declared yet.  What the base class refuses is in
    [base.new_Stack] below. *)
Definition super (scope : Construct) (id : string) (props : option StackProps) : Stack :=
  {| node_scope := scope;
     node_id := id;
     stack_props := props;
     constructs := [] |}.

(** State (the stack) and errors (a thrown [Error]). *)
Definition M (A : Type) : Type := Stack -> Result (A * Stack).

Definition ret {A : Type} (a : A) : M A := fun s => Ok (a, s).

Definition bind {A B : Type} (m : M A) (k : A -> M B) : M B :=
  fun s =>
    match m s with
    | Ok (a, s') => k a s'
    | Throw e => Throw e
    end.

Local Notation "'const' x '<-' m ';;' k" := (bind m (fun x => k))
  (at level 61, x name, m at next level, right associativity).
Local Notation "m ';;' k" := (bind m (fun _ => k))
  (at level 61, right associativity, only parsing).

(** *** Primitives of the construct tree *)

(** A scope is [this] or a construct already declared. *)
Definition isScope (r : Ref) (cs : Constructs) : bool :=
  match r with
  | [] => true
  | _ => match findConstruct r cs with Some _ => true | None => false end
  end.

(** [new X(scope, id, ...)]: the construct becomes the child [id] of
    [scope]; a second child of that id is refused. *)
Definition declare (scope : Ref) (id : Id) (res : Resource) : M Ref :=
  fun s =>
    let r := scope ++ [id] in
    if isScope scope (constructs s) then
      match findConstruct r (constructs s) with
      | Some _ => Throw (DuplicateId scope id)
      | None => Ok (r, withConstructs s (constructs s ++ [(r, res)]))
      end
    else Throw (NoSuchConstruct scope).

(** A method that changes the construct at [r]. *)
Definition mutate (r : Ref) (f : Resource -> Result Resource) : M unit :=
  fun s =>
    match findConstruct r (constructs s) with
    | None => Throw (NoSuchConstruct r)
    | Some res =>
        match f res with
        | Ok res' => Ok (tt, withConstructs s (replaceConstruct r res' (constructs s)))
        | Throw e => Throw e
        end
    end.

(** The receiver of a method is a construct of the expected kind. *)
Definition receiver (r : Ref) (kind : Resource -> bool) : M unit :=
  mutate r (fun res => if kind res then Ok res else Throw (WrongKind r)).

Definition isApplicationLoadBalancer (res : Resource) : bool :=
  match res with ApplicationLoadBalancer _ => true | _ => false end.
Definition isApplicationListener (res : Resource) : bool :=
  match res with ApplicationListener _ _ => true | _ => false end.
Definition isFargateTaskDefinition (res : Resource) : bool :=
  match res with FargateTaskDefinition _ => true | _ => false end.
Definition isFargateService (res : Resource) : bool :=
  match res with FargateService _ _ _ => true | _ => false end.
Definition isScalingFargateService (res : Resource) : bool :=
  match res with FargateService _ (Some _) _ => true | _ => false end.

(** *** The library calls the constructor makes *)

Definition new_Vpc (scope : Ref) (id : Id) (p : ec2.VpcProps) : M Ref :=
  declare scope id (Vpc p).

Definition new_SecurityGroup (scope : Ref) (id : Id) (p : ec2.SecurityGroupProps) : M Ref :=
  declare scope id (SecurityGroup p []).

(** [sg.addIngressRule(peer, connection, description)]. *)
Definition addIngressRule (sg : Ref) (peer : ec2.Peer) (connection : ec2.Port)
           (description : string) : M unit :=
  mutate sg (fun res =>
    match res with
    | SecurityGroup p ingress =>
        Ok (SecurityGroup p (ingress ++ [ {| ec2.peer := peer;
                                            ec2.connection := connection;
                                            ec2.ruleDescription := description |} ]))
    | _ => Throw (WrongKind sg)
    end).

Definition new_Secret (scope : Ref) (id : Id) (p : secretsmanager.SecretProps) : M Ref :=
  declare scope id (Secret p).

Definition new_DatabaseInstance (scope : Ref) (id : Id) (p : rds.DatabaseInstanceProps) : M Ref :=
  declare scope id (DatabaseInstance p).

Definition new_Cluster (scope : Ref) (id : Id) (p : ecs.ClusterProps) : M Ref :=
  declare scope id (Cluster p).

Definition new_ApplicationLoadBalancer (scope : Ref) (id : Id)
           (p : elbv2.ApplicationLoadBalancerProps) : M Ref :=
  declare scope id (ApplicationLoadBalancer p).

(** [alb.addListener(id, props)]: the listener is a child of the load
    balancer. *)
Definition addListener (alb : Ref) (id : Id) (p : elbv2.BaseApplicationListenerProps) : M Ref :=
  receiver alb isApplicationLoadBalancer ;;
  declare alb id (ApplicationListener p None).

Definition new_Role (scope : Ref) (id : Id) (p : iam.RoleProps) : M Ref :=
  declare scope id (Role p).

Definition new_FargateTaskDefinition (scope : Ref) (id : Id)
           (p : ecs.FargateTaskDefinitionProps) : M Ref :=
  declare scope id (FargateTaskDefinition p).

(** [taskDefinition.addContainer(id, props)]: the container is a child of
    the task definition. *)
Definition addContainer (taskDefinition : Ref) (id : Id)
           (p : ecs.ContainerDefinitionOptions) : M Ref :=
  receiver taskDefinition isFargateTaskDefinition ;;
  declare taskDefinition id (ContainerDefinition p []).

(** [container.addPortMappings(mapping)]. *)
Definition addPortMappings (container : Ref) (mapping : ecs.PortMapping) : M unit :=
  mutate container (fun res =>
    match res with
    | ContainerDefinition p mappings => Ok (ContainerDefinition p (mappings ++ [mapping]))
    | _ => Throw (WrongKind container)
    end).

Definition new_FargateService (scope : Ref) (id : Id) (p : ecs.FargateServiceProps) : M Ref :=
  declare scope id (FargateService p None []).

Definition new_ApplicationTargetGroup (scope : Ref) (id : Id)
           (p : elbv2.ApplicationTargetGroupProps) : M Ref :=
  declare scope id (ApplicationTargetGroup p []).

(** [service.attachToApplicationTargetGroup(targetGroup)]: the service
    becomes a target of the group. *)
Definition attachToApplicationTargetGroup (service targetGroup : Ref) : M unit :=
  receiver service isFargateService ;;
  mutate targetGroup (fun res =>
    match res with
    | ApplicationTargetGroup p targets => Ok (ApplicationTargetGroup p (targets ++ [service]))
    | _ => Throw (WrongKind targetGroup)
    end).

(** [listener.addTargetGroups(id, props)].  Called with target groups and
    no priority, as the source calls it, it declares no construct: the
    groups become what the listener forwards to by default, in place of
    whatever default it had, and [id] is not used. *)
Definition addTargetGroups (listener : Ref) (id : Id)
           (p : elbv2.AddApplicationTargetGroupsProps) : M unit :=
  mutate listener (fun res =>
    match res with
    | ApplicationListener lp _ =>
        Ok (ApplicationListener lp (Some (elbv2.forward (elbv2.targetGroups p))))
    | _ => Throw (WrongKind listener)
    end).

(** What [autoScaleTaskCount] returns: the scalable task count of a
    service. *)
Inductive ScalableTaskCount :=
| scalableTaskCount (service : Ref).

(** [service.autoScaleTaskCount(props)]; the library refuses to enable
    scaling twice on one service. *)
Definition autoScaleTaskCount (service : Ref) (p : ecs.EnableScalingProps)
  : M ScalableTaskCount :=
  mutate service (fun res =>
    match res with
    | FargateService sp None policies => Ok (FargateService sp (Some p) policies)
    | FargateService _ (Some _) _ => Throw (ScalingAlreadyEnabled service)
    | _ => Throw (WrongKind service)
    end) ;;
  ret (scalableTaskCount service).

(** [scaling.scaleOnCpuUtilization(id, props)]: one more policy, named
    [id], on the scalable task count of the service.  The library keeps the
    policy in constructs of its own below the service; here it is kept with
    the service, and a second policy of the same id is refused as a second
    child of one id is. *)
Definition scaleOnCpuUtilization (scaling : ScalableTaskCount) (id : Id)
           (p : ecs.CpuUtilizationScalingProps) : M unit :=
  match scaling with
  | scalableTaskCount service =>
      mutate service (fun res =>
        match res with
        | FargateService sp (Some capacity) policies =>
            if existsb (fun policy => Id_eqb (fst policy) id) policies
            then Throw (DuplicateId service id)
            else Ok (FargateService sp (Some capacity) (policies ++ [(id, p)]))
        | _ => Throw (WrongKind service)
        end)
  end.

Definition new_Distribution (scope : Ref) (id : Id) (p : cloudfront.DistributionProps) : M Ref :=
  declare scope id (Distribution p).

Definition new_CfnOutput (scope : Ref) (id : Id) (p : cdk.CfnOutputProps) : M Ref :=
  declare scope id (CfnOutput p).

(** Attribute getters read by the source. *)
Definition dbInstanceEndpointAddress (dbInstance : Ref) : cdk.Value :=
  cdk.Token dbInstance cdk.dbInstanceEndpointAddress.
Definition loadBalancerDnsName (alb : Ref) : cdk.Value :=
  cdk.Token alb cdk.loadBalancerDnsName.
Definition distributionDomainName (distribution : Ref) : cdk.Value :=
  cdk.Token distribution cdk.distributionDomainName.

(** *** The constructor *)

(** The statements after [super(scope, id, props)], in source order. *)
Definition declarations : M unit :=
  const vpc <- new_Vpc this "WordpressVPC"
    {| ec2.maxAzs := 2;
       ec2.natGateways := 1 |} ;;

  const albSg <- new_SecurityGroup this "AlbSecurityGroup"
    {| ec2.vpc := vpc;
       ec2.description := "Security group for ALB";
       ec2.allowAllOutbound := true |} ;;
  addIngressRule albSg ec2.anyIpv4 (ec2.tcp 80) "Allow HTTP traffic" ;;
  addIngressRule albSg ec2.anyIpv4 (ec2.tcp 443) "Allow HTTPS traffic" ;;

  const ecsSg <- new_SecurityGroup this "EcsSecurityGroup"
    {| ec2.vpc := vpc;
       ec2.description := "Security group for ECS";
       ec2.allowAllOutbound := true |} ;;
  addIngressRule ecsSg (ec2.securityGroup albSg) (ec2.tcp 80) "Allow traffic from ALB" ;;

  const dbSg <- new_SecurityGroup this "DbSecurityGroup"
    {| ec2.vpc := vpc;
       ec2.description := "Security group for RDS";
       ec2.allowAllOutbound := true |} ;;
  addIngressRule dbSg (ec2.securityGroup ecsSg) (ec2.tcp 3306) "Allow MySQL traffic from ECS" ;;

  const dbPassword <- new_Secret this "DBPassword"
    {| secretsmanager.secretName := "wordpress-db-password";
       secretsmanager.generateSecretString :=
         {| secretsmanager.secretStringTemplate := None;
            secretsmanager.generateStringKey := None;
            secretsmanager.excludePunctuation := true;
            secretsmanager.passwordLength := 16 |} |} ;;

  const dbInstance <- new_DatabaseInstance this "WordpressDatabase"
    {| rds.engine := rds.mysql rds.VER_8_0;
       rds.instanceType := ec2.instanceTypeOf ec2.BURSTABLE3 ec2.SMALL;
       rds.vpc := vpc;
       rds.vpcSubnets := {| ec2.subnetType := ec2.PRIVATE_WITH_EGRESS |};
       rds.securityGroups := [dbSg];
       rds.databaseName := "wordpress";
       rds.credentials := rds.fromSecret dbPassword None;
       rds.backupRetention := cdk.days 7;
       rds.deletionProtection := false;
       rds.storageEncrypted := true |} ;;

  const cluster <- new_Cluster this "WordpressCluster"
    {| ecs.vpc := vpc;
       ecs.containerInsights := true |} ;;

  const alb <- new_ApplicationLoadBalancer this "WordpressALB"
    {| elbv2.vpc := vpc;
       elbv2.internetFacing := true;
       elbv2.securityGroup := albSg |} ;;

  const httpListener <- addListener alb "HttpListener"
    {| elbv2.port := 80;
       elbv2.open := true |} ;;

  const taskRole <- new_Role this "WordpressTaskRole"
    {| iam.assumedBy := iam.ServicePrincipal "ecs-tasks.amazonaws.com" |} ;;

  const taskDefinition <- new_FargateTaskDefinition this "WordpressTaskDef"
    {| ecs.memoryLimitMiB := 2048;
       ecs.cpu := 1024;
       ecs.taskRole := taskRole |} ;;

  const wordpressContainer <- addContainer taskDefinition "WordpressContainer"
    {| ecs.image := ecs.fromRegistry "wordpress:latest";
       ecs.logging := ecs.awsLogs "wordpress";
       ecs.environment :=
         [ ("WORDPRESS_DB_HOST", dbInstanceEndpointAddress dbInstance);
           ("WORDPRESS_DB_NAME", cdk.Literal "wordpress");
           ("WORDPRESS_DB_USER", cdk.Literal "admin") ];
       ecs.secrets :=
         [ ("WORDPRESS_DB_PASSWORD", ecs.fromSecretsManager dbPassword) ] |} ;;

  addPortMappings wordpressContainer {| ecs.containerPort := 80 |} ;;

  const wordpressService <- new_FargateService this "WordpressService"
    {| ecs.cluster := cluster;
       ecs.taskDefinition := taskDefinition;
       ecs.desiredCount := 2;
       ecs.securityGroups := [ecsSg];
       ecs.vpcSubnets := {| ec2.subnetType := ec2.PRIVATE_WITH_EGRESS |};
       ecs.assignPublicIp := false;
       ecs.healthCheckGracePeriod := cdk.seconds 60 |} ;;

  const targetGroup <- new_ApplicationTargetGroup this "WordpressTargetGroup"
    {| elbv2.targetVpc := vpc;
       elbv2.targetPort := 80;
       elbv2.protocol := elbv2.HTTP;
       elbv2.targetType := elbv2.IP;
       elbv2.healthCheck :=
         {| elbv2.path := "/";
            elbv2.interval := cdk.seconds 30 |} |} ;;

  attachToApplicationTargetGroup wordpressService targetGroup ;;
  addTargetGroups httpListener "WordpressTargetGroup"
    {| elbv2.targetGroups := [targetGroup] |} ;;

  const scaling <- autoScaleTaskCount wordpressService
    {| ecs.minCapacity := 2;
       ecs.maxCapacity := 10 |} ;;

  scaleOnCpuUtilization scaling "CpuScaling"
    {| ecs.targetUtilizationPercent := 70;
       ecs.scaleInCooldown := cdk.seconds 60;
       ecs.scaleOutCooldown := cdk.seconds 60 |} ;;

  const distribution <- new_Distribution this "WordpressDistribution"
    {| cloudfront.defaultBehavior :=
         {| cloudfront.origin :=
              cloudfront.LoadBalancerV2Origin alb cloudfront.HTTP_ONLY;
            cloudfront.cachePolicy := cloudfront.CACHING_OPTIMIZED;
            cloudfront.viewerProtocolPolicy := cloudfront.REDIRECT_TO_HTTPS;
            cloudfront.allowedMethods := cloudfront.ALLOW_ALL;
            cloudfront.originRequestPolicy := cloudfront.ALL_VIEWER;
            cloudfront.compress := true |};
       cloudfront.priceClass := cloudfront.PRICE_CLASS_100 |} ;;

  new_CfnOutput this "LoadBalancerDNS"
    {| cdk.value := loadBalancerDnsName alb;
       cdk.description := "ALB DNS Name" |} ;;

  new_CfnOutput this "CloudFrontDomainName"
    {| cdk.value := distributionDomainName distribution;
       cdk.description := "CloudFront Domain Name" |} ;;

  new_CfnOutput this "DatabaseEndpoint"
    {| cdk.value := dbInstanceEndpointAddress dbInstance;
       cdk.description := "RDS Database Endpoint" |} ;;

  ret tt.

(** [new WordpressThreeTierStack(scope, id, props)] on arguments the base
    class accepts: the stack once the constructor has run, or the error its
    statements threw.  [WordpressThreeTierStackOver] below is the
    constructor with the base class's refusals. *)
Definition WordpressThreeTierStack (scope : Construct) (id : string)
           (props : option StackProps) : Result Stack :=
  match declarations (super scope id props) with
  | Ok (_, s) => Ok s
  | Throw e => Throw e
  end.

End Construction.

Arguments node_scope {Construct StackProps} s.
Arguments node_id {Construct StackProps} s.
Arguments stack_props {Construct StackProps} s.
Arguments constructs {Construct StackProps} s.
Arguments withConstructs {Construct StackProps} s cs.
Arguments super {Construct StackProps} scope id props.
Arguments ret {Construct StackProps A} a s.
Arguments bind {Construct StackProps A B} m k s.
Arguments declare {Construct StackProps} scope id res s.
Arguments mutate {Construct StackProps} r f s.
Arguments receiver {Construct StackProps} r kind s.
Arguments declarations {Construct StackProps} s.
Arguments WordpressThreeTierStack {Construct StackProps} scope id props.

(** ** Reading a constructed stack *)

(** The paths the constructor's local names are bound to. *)
Module Refs.
Definition vpc : Ref := ["WordpressVPC"].
Definition albSg : Ref := ["AlbSecurityGroup"].
Definition ecsSg : Ref := ["EcsSecurityGroup"].
Definition dbSg : Ref := ["DbSecurityGroup"].
Definition dbPassword : Ref := ["DBPassword"].
Definition dbInstance : Ref := ["WordpressDatabase"].
Definition cluster : Ref := ["WordpressCluster"].
Definition alb : Ref := ["WordpressALB"].
Definition httpListener : Ref := ["WordpressALB"; "HttpListener"].
Definition taskRole : Ref := ["WordpressTaskRole"].
Definition taskDefinition : Ref := ["WordpressTaskDef"].
Definition wordpressContainer : Ref := ["WordpressTaskDef"; "WordpressContainer"].
Definition wordpressService : Ref := ["WordpressService"].
Definition targetGroup : Ref := ["WordpressTargetGroup"].
Definition distribution : Ref := ["WordpressDistribution"].
End Refs.

Definition construct {Construct StackProps : Type}
           (g : Stack Construct StackProps) (r : Ref) : option Resource :=
  findConstruct r (constructs g).

(** Read a property off the construct at [r], when there is one and it has
    the property. *)
Definition read {Construct StackProps A : Type} (f : Resource -> option A)
           (g : Stack Construct StackProps) (r : Ref) : option A :=
  match construct g r with
  | Some res => f res
  | None => None
  end.

(** The paths of the constructs of one kind, in declaration order. *)
Definition select {Construct StackProps : Type} (kind : Resource -> bool)
           (g : Stack Construct StackProps) : list Ref :=
  paths (filter (fun c => kind (snd c)) (constructs g)).

(** The children of a construct, in declaration order. *)
Definition childrenOf {Construct StackProps : Type}
           (g : Stack Construct StackProps) (scope : Ref) : list Ref :=
  filter (fun r => Ref_eqb (removelast r) scope && negb (Ref_eqb r []))
         (paths (constructs g)).

Definition isVpc (res : Resource) : bool :=
  match res with Vpc _ => true | _ => false end.
Definition isSecurityGroup (res : Resource) : bool :=
  match res with SecurityGroup _ _ => true | _ => false end.
Definition isDatabaseInstance (res : Resource) : bool :=
  match res with DatabaseInstance _ => true | _ => false end.
Definition isApplicationTargetGroup (res : Resource) : bool :=
  match res with ApplicationTargetGroup _ _ => true | _ => false end.
Definition isDistribution (res : Resource) : bool :=
  match res with Distribution _ => true | _ => false end.
Definition isCfnOutput (res : Resource) : bool :=
  match res with CfnOutput _ => true | _ => false end.

(** The ingress rules added to a security group. *)
Definition ingressOf (res : Resource) : option (list ec2.IngressRule) :=
  match res with
  | SecurityGroup _ ingress => Some ingress
  | _ => None
  end.

(** The security groups a construct is declared with. *)
Definition securityGroupsOf (res : Resource) : option (list Ref) :=
  match res with
  | ApplicationLoadBalancer p => Some [elbv2.securityGroup p]
  | FargateService p _ _ => Some (ecs.securityGroups p)
  | DatabaseInstance p => Some (rds.securityGroups p)
  | _ => None
  end.

(** The virtual network a construct names in its props, if it names one. *)
Definition vpcOf (res : Resource) : option Ref :=
  match res with
  | SecurityGroup p _ => Some (ec2.vpc p)
  | DatabaseInstance p => Some (rds.vpc p)
  | Cluster p => Some (ecs.vpc p)
  | ApplicationLoadBalancer p => Some (elbv2.vpc p)
  | ApplicationTargetGroup p _ => Some (elbv2.targetVpc p)
  | _ => None
  end.

(** The subnet selection a construct is declared with. *)
Definition subnetTypeOf (res : Resource) : option ec2.SubnetType :=
  match res with
  | DatabaseInstance p => Some (ec2.subnetType (rds.vpcSubnets p))
  | FargateService p _ _ => Some (ec2.subnetType (ecs.vpcSubnets p))
  | _ => None
  end.

(** Declared with [internetFacing: true]. *)
Definition isInternetFacing (res : Resource) : bool :=
  match res with
  | ApplicationLoadBalancer p => elbv2.internetFacing p
  | _ => false
  end.

(** The value under a key of an object literal. *)
Fixpoint property {A : Type} (key : string) (obj : list (string * A)) : option A :=
  match obj with
  | [] => None
  | (k, v) :: obj' => if String.eqb key k then Some v else property key obj'
  end.

(** The username a [rds.Credentials] value was given. *)
Definition usernameOf (c : rds.Credentials) : option string :=
  match c with rds.fromSecret _ username => username end.

(** The credential-store entry behind a [rds.Credentials] value. *)
Definition secretOf (c : rds.Credentials) : Ref :=
  match c with rds.fromSecret secret _ => secret end.

(** The outputs of the stack, in declaration order. *)
Fixpoint outputsOf (cs : Constructs) : list (Ref * cdk.CfnOutputProps) :=
  match cs with
  | [] => []
  | (r, CfnOutput p) :: cs' => (r, p) :: outputsOf cs'
  | _ :: cs' => outputsOf cs'
  end.

(** The kind of construct an attribute is read from. *)
Definition carries (attr : cdk.Attribute) (res : Resource) : bool :=
  match attr, res with
  | cdk.dbInstanceEndpointAddress, DatabaseInstance _ => true
  | cdk.loadBalancerDnsName, ApplicationLoadBalancer _ => true
  | cdk.distributionDomainName, Distribution _ => true
  | _, _ => false
  end.

(** A value that is an attribute of a construct declared in [g]. *)
Definition isEndpointOf {Construct StackProps : Type}
           (g : Stack Construct StackProps) (v : cdk.Value) : bool :=
  match v with
  | cdk.Literal _ => false
  | cdk.Token r attr =>
      match construct g r with
      | Some res => carries attr res
      | None => false
      end
  end.

(** The load balancer a distribution's default behavior has as origin. *)
Definition originOf (res : Resource) : option Ref :=
  match res with
  | Distribution p =>
      match cloudfront.origin (cloudfront.defaultBehavior p) with
      | cloudfront.LoadBalancerV2Origin lb _ => Some lb
      end
  | _ => None
  end.

(** The services attached to a target group. *)
Definition targetsOf (res : Resource) : option (list Ref) :=
  match res with
  | ApplicationTargetGroup _ targets => Some targets
  | _ => None
  end.

(** The virtual network a construct is placed in: the one it names, or,
    for a service, the one its cluster names. *)
Definition networkOf {Construct StackProps : Type}
           (g : Stack Construct StackProps) (r : Ref) : option Ref :=
  match construct g r with
  | Some (FargateService p _ _) =>
      match construct g (ecs.cluster p) with
      | Some res => vpcOf res
      | None => None
      end
  | Some res => vpcOf res
  | None => None
  end.

(** Every virtual network named by some construct, in declaration order. *)
Fixpoint networksNamed (cs : Constructs) : list Ref :=
  match cs with
  | [] => []
  | (_, res) :: cs' =>
      match vpcOf res with
      | Some v => v :: networksNamed cs'
      | None => networksNamed cs'
      end
  end.

(** The engine a database instance is declared with. *)
Definition engineOf (res : Resource) : option rds.DatabaseInstanceEngine :=
  match res with
  | DatabaseInstance p => Some (rds.engine p)
  | _ => None
  end.

(** Whether a service's tasks are given a public IP. *)
Definition assignPublicIpOf (res : Resource) : option bool :=
  match res with
  | FargateService p _ _ => Some (ecs.assignPublicIp p)
  | _ => None
  end.

(** Whether the construct at [r] is declared internet-facing. *)
Definition isInternetFacing_at {Construct StackProps : Type}
           (g : Stack Construct StackProps) (r : Ref) : bool :=
  match construct g r with
  | Some res => isInternetFacing res
  | None => false
  end.

(** A computation that keeps the paths of the constructs pairwise
    distinct. *)
Definition keepsDistinct {Construct StackProps A : Type}
           (m : M Construct StackProps A) : Prop :=
  forall (s t : Stack Construct StackProps) (a : A),
    NoDup (paths (constructs s)) ->
    m s = Ok (a, t) ->
    NoDup (paths (constructs t)).

(** ** The references between constructs *)

Definition isSecret (res : Resource) : bool :=
  match res with Secret _ => true | _ => false end.
Definition isRole (res : Resource) : bool :=
  match res with Role _ => true | _ => false end.
Definition isCluster (res : Resource) : bool :=
  match res with Cluster _ => true | _ => false end.

(** A reference held by a construct: the path referred to, and the kind of
    construct the property it stands in takes. *)
Definition Reference : Type := Ref * (Resource -> bool).

Definition valueReferences (v : cdk.Value) : list Reference :=
  match v with
  | cdk.Literal _ => []
  | cdk.Token r attr => [(r, carries attr)]
  end.

Definition peerReferences (p : ec2.Peer) : list Reference :=
  match p with
  | ec2.anyIpv4 => []
  | ec2.securityGroup sg => [(sg, isSecurityGroup)]
  end.

Definition secretReferences (s : ecs.Secret) : list Reference :=
  match s with
  | ecs.fromSecretsManager secret => [(secret, isSecret)]
  end.

Definition originReferences (o : cloudfront.Origin) : list Reference :=
  match o with
  | cloudfront.LoadBalancerV2Origin lb _ => [(lb, isApplicationLoadBalancer)]
  end.

Definition ofKind (kind : Resource -> bool) (rs : list Ref) : list Reference :=
  map (fun r => (r, kind)) rs.

(** Everything a construct refers to: through the props it was declared
    with and through what later calls added to it. *)
Definition references (res : Resource) : list Reference :=
  match res with
  | Vpc _ => []
  | SecurityGroup p ingress =>
      (ec2.vpc p, isVpc) :: flat_map (fun rule => peerReferences (ec2.peer rule)) ingress
  | Secret _ => []
  | DatabaseInstance p =>
      (rds.vpc p, isVpc)
        :: ofKind isSecurityGroup (rds.securityGroups p)
        ++ [(secretOf (rds.credentials p), isSecret)]
  | Cluster p => [(ecs.vpc p, isVpc)]
  | ApplicationLoadBalancer p =>
      [(elbv2.vpc p, isVpc); (elbv2.securityGroup p, isSecurityGroup)]
  | ApplicationListener _ None => []
  | ApplicationListener _ (Some (elbv2.forward targetGroups)) =>
      ofKind isApplicationTargetGroup targetGroups
  | Role _ => []
  | FargateTaskDefinition p => [(ecs.taskRole p, isRole)]
  | ContainerDefinition p _ =>
      flat_map (fun e => valueReferences (snd e)) (ecs.environment p)
        ++ flat_map (fun e => secretReferences (snd e)) (ecs.secrets p)
  | FargateService p _ _ =>
      (ecs.cluster p, isCluster)
        :: (ecs.taskDefinition p, isFargateTaskDefinition)
        :: ofKind isSecurityGroup (ecs.securityGroups p)
  | ApplicationTargetGroup p targets =>
      (elbv2.targetVpc p, isVpc) :: ofKind isFargateService targets
  | Distribution p => originReferences (cloudfront.origin (cloudfront.defaultBehavior p))
  | CfnOutput p => valueReferences (cdk.value p)
  end.

(** [target] is, among the constructs [cs], one of the kind asked for. *)
Definition resolves (cs : Constructs) (target : Reference) : bool :=
  match findConstruct (fst target) cs with
  | Some t => snd target t
  | None => false
  end.

(** Every reference of a construct resolves among the constructs [cs]. *)
Definition referencesResolve (cs : Constructs) (r : Ref) (res : Resource) : bool :=
  forallb (resolves cs) (references res).

(** ** Ports *)





(** ** The base class

    [super(scope, id, props)] runs the constructors of [cdk.Stack] and of
    [Construct] before any statement of the repository runs.  They belong to
    the construct library; what is written here is the part of them that
    reads the id and the name of the stack. *)
Module base.


(** Of [cdk.StackProps], the name given to the stack, when one is. *)
Record StackProps := {
  stackName : option string
}.







End base.

(** The constructor over a base class: [base] is what
    [super(scope, id, props)] does.  What [super] throws is not caught, and
    on the stack it returns the statements of the constructor run. *)
Definition WordpressThreeTierStackOver {Construct StackProps : Type}
           (base : Construct -> string -> option StackProps ->
                   Result (Stack Construct StackProps))
           (scope : Construct) (id : string) (props : option StackProps)
  : Result (Stack Construct StackProps) :=
  match base scope id props with
  | Throw e => Throw e
  | Ok s =>
      match declarations s with
      | Ok (_, g) => Ok g
      | Throw e => Throw e
      end
  end.


(** ** The construct tree *)

Lemma Id_eqb_eq (a b : Id) : Id_eqb a b = true <-> a = b.
Proof. apply String.eqb_eq. Qed.

Lemma Ref_eqb_eq (a b : Ref) : Ref_eqb a b = true <-> a = b.
Proof.
  revert b; induction a as [|x a IH]; intros [|y b]; simpl;
    try (split; [discriminate | congruence]).
  - split; reflexivity.
  - rewrite andb_true_iff, Id_eqb_eq, IH.
    split; [intros [-> ->]; reflexivity | intros E; injection E; auto].
Qed.

Lemma Ref_eqb_refl (a : Ref) : Ref_eqb a a = true.
Proof. apply Ref_eqb_eq; reflexivity. Qed.

Lemma Ref_eqb_neq (a b : Ref) : Ref_eqb a b = false <-> a <> b.
Proof.
  rewrite <- Ref_eqb_eq.
  destruct (Ref_eqb a b); split; congruence.
Qed.

(** An absent path is not among the declared ones, and conversely. *)
Lemma findConstruct_None (r : Ref) (cs : Constructs) :
  findConstruct r cs = None <-> ~ In r (paths cs).
Proof.
  induction cs as [|[r' res] cs IH]; simpl.
  - tauto.
  - destruct (Ref_eqb r r') eqn:E.
    + apply Ref_eqb_eq in E; subst.
      split; [discriminate | intros H; exfalso; apply H; now left].
    + apply Ref_eqb_neq in E. rewrite IH.
      split; [intros H [H' | H']; [congruence | auto] | intros H H'; apply H; now right].
Qed.

(** A construct appended at a fresh path is found there, and nothing else
    moves. *)
Lemma findConstruct_declared (r r' : Ref) (res : Resource) (cs : Constructs) :
  findConstruct r cs = None ->
  findConstruct r' (cs ++ [(r, res)]) =
    if Ref_eqb r' r then Some res else findConstruct r' cs.
Proof.
  intros Hfresh.
  induction cs as [|[q old] cs IH]; simpl in *.
  - reflexivity.
  - destruct (Ref_eqb r q) eqn:Erq; [discriminate|].
    destruct (Ref_eqb r' q) eqn:Er'q.
    + apply Ref_eqb_eq in Er'q; subst q.
      destruct (Ref_eqb r' r) eqn:E; [|reflexivity].
      apply Ref_eqb_eq in E; subst. rewrite Ref_eqb_refl in Erq. discriminate.
    + apply IH, Hfresh.
Qed.

Lemma paths_declared (r : Ref) (res : Resource) (cs : Constructs) :
  paths (cs ++ [(r, res)]) = paths cs ++ [r].
Proof. unfold paths. now rewrite map_app. Qed.

Lemma NoDup_snoc {A : Type} (l : list A) (x : A) :
  NoDup l -> ~ In x l -> NoDup (l ++ [x]).
Proof.
  induction 1 as [|y l Hy Hl IH]; simpl; intros Hx.
  - constructor; [tauto | constructor].
  - constructor.
    + intros Hin. apply in_app_or in Hin as [Hin | [-> | []]]; tauto.
    + apply IH. tauto.
Qed.

(** Replacing a construct changes no path. *)
Lemma paths_replaceConstruct (r : Ref) (res : Resource) (cs : Constructs) :
  paths (replaceConstruct r res cs) = paths cs.
Proof.
  induction cs as [|[q old] cs IH]; simpl.
  - reflexivity.
  - destruct (Ref_eqb r q); simpl; [reflexivity | now rewrite IH].
Qed.

(** After a replacement the new construct is read back at its path, and
    every other path reads what it read before. *)
Lemma findConstruct_replaced (r r' : Ref) (res : Resource) (cs : Constructs) :
  findConstruct r' (replaceConstruct r res cs) =
    if Ref_eqb r' r
    then match findConstruct r cs with Some _ => Some res | None => None end
    else findConstruct r' cs.
Proof.
  induction cs as [|[q old] cs IH]; simpl.
  - destruct (Ref_eqb r' r); reflexivity.
  - destruct (Ref_eqb r q) eqn:Erq; simpl.
    + apply Ref_eqb_eq in Erq; subst q.
      destruct (Ref_eqb r' r); reflexivity.
    + destruct (Ref_eqb r' q) eqn:Er'q.
      * apply Ref_eqb_eq in Er'q; subst q.
        destruct (Ref_eqb r' r) eqn:E; [|reflexivity].
        apply Ref_eqb_eq in E; subst. rewrite Ref_eqb_refl in Erq. discriminate.
      * apply IH.
Qed.


(** ** The primitives *)

(** A declaration that succeeds returns the child's path, puts the
    construct there and leaves every other path as it was. *)
Lemma declare_spec {Construct StackProps : Type}
      (scope : Ref) (id : Id) (res : Resource)
      (s t : Stack Construct StackProps) (r : Ref) :
  declare scope id res s = Ok (r, t) ->
  r = scope ++ [id] /\
  construct s r = None /\
  construct t r = Some res /\
  forall r', r' <> r -> construct t r' = construct s r'.
Proof.
  unfold declare, construct.
  destruct (isScope scope (constructs s)); [|discriminate].
  destruct (findConstruct (scope ++ [id]) (constructs s)) eqn:Hfresh; [discriminate|].
  intros H; injection H as <- <-; simpl.
  repeat split; auto.
  - rewrite findConstruct_declared, Ref_eqb_refl by assumption. reflexivity.
  - intros r' Hr'. rewrite findConstruct_declared by assumption.
    apply Ref_eqb_neq in Hr'. now rewrite Hr'.
Qed.

(** A method that changes one construct changes no other: what is read at
    any other path is what was read before. *)
Lemma mutate_frame {Construct StackProps : Type}
      (r : Ref) (f : Resource -> Result Resource)
      (s t : Stack Construct StackProps) :
  mutate r f s = Ok (tt, t) ->
  forall r', r' <> r -> construct t r' = construct s r'.
Proof.
  unfold mutate, construct.
  destruct (findConstruct r (constructs s)) as [res|]; [|discriminate].
  destruct (f res) as [res'|e]; [|discriminate].
  intros H; injection H as <-; simpl.
  intros r' Hr'. rewrite findConstruct_replaced.
  apply Ref_eqb_neq in Hr'. now rewrite Hr'.
Qed.

(** ** Paths stay distinct *)

Create HintDb distinct.

Lemma keepsDistinct_ret {Construct StackProps A : Type} (a : A) :
  keepsDistinct (@ret Construct StackProps A a).
Proof. intros s t a' Hs H. injection H as _ <-. assumption. Qed.

Lemma keepsDistinct_bind {Construct StackProps A B : Type}
      (m : M Construct StackProps A) (k : A -> M Construct StackProps B) :
  keepsDistinct m -> (forall a, keepsDistinct (k a)) -> keepsDistinct (bind m k).
Proof.
  intros Hm Hk s u b Hs. unfold bind.
  destruct (m s) as [[a t]|e] eqn:E; [|discriminate].
  intros H. exact (Hk a t u b (Hm s t a Hs E) H).
Qed.

Lemma keepsDistinct_declare {Construct StackProps : Type}
      (scope : Ref) (id : Id) (res : Resource) :
  keepsDistinct (@declare Construct StackProps scope id res).
Proof.
  intros s t r Hs. unfold declare.
  destruct (isScope scope (constructs s)); [|discriminate].
  destruct (findConstruct (scope ++ [id]) (constructs s)) eqn:Hfresh; [discriminate|].
  intros H; injection H as _ <-; simpl.
  rewrite paths_declared.
  apply NoDup_snoc; [assumption|].
  now apply findConstruct_None.
Qed.

Lemma keepsDistinct_mutate {Construct StackProps : Type}
      (r : Ref) (f : Resource -> Result Resource) :
  keepsDistinct (@mutate Construct StackProps r f).
Proof.
  intros s t [] Hs. unfold mutate.
  destruct (findConstruct r (constructs s)) as [res|]; [|discriminate].
  destruct (f res) as [res'|e]; [|discriminate].
  intros H; injection H as <-; simpl.
  now rewrite paths_replaceConstruct.
Qed.

Lemma keepsDistinct_receiver {Construct StackProps : Type}
      (r : Ref) (kind : Resource -> bool) :
  keepsDistinct (@receiver Construct StackProps r kind).
Proof. apply keepsDistinct_mutate. Qed.

#[export] Hint Resolve keepsDistinct_ret keepsDistinct_declare
  keepsDistinct_mutate keepsDistinct_receiver : distinct.

Ltac distinct_step :=
  first [ apply keepsDistinct_bind; [ | intros ? ]
        | solve [ auto with distinct ] ].

Lemma keepsDistinct_scaleOnCpuUtilization {Construct StackProps : Type}
      (scaling : ScalableTaskCount) (id : Id) (p : ecs.CpuUtilizationScalingProps) :
  keepsDistinct (scaleOnCpuUtilization Construct StackProps scaling id p).
Proof. destruct scaling as [service]; simpl. repeat distinct_step. Qed.

#[export] Hint Resolve keepsDistinct_scaleOnCpuUtilization : distinct.


(** ** The declared graph *)

(** Running the constructor on its own inputs and reading the result. *)
Ltac construct_then_read :=
  intros; eexists; split; [ vm_compute; reflexivity | ].

(** C1: the security groups form a chain of three.  The load balancer's
    group admits TCP 80 and TCP 443 from any IPv4 address; the container
    service's group admits TCP 80 with the load balancer's group as source;
    the database's group admits TCP 3306 with the service's group as source.
    These four rules are all the ingress rules declared, and the three
    groups are all the security groups declared. *)
Theorem security_groups_chain :
  forall (Construct StackProps : Type) (scope : Construct) (id : string)
         (props : option StackProps),
  exists g,
    WordpressThreeTierStack scope id props = Ok g /\
    select isSecurityGroup g = [Refs.albSg; Refs.ecsSg; Refs.dbSg] /\
    read securityGroupsOf g Refs.alb = Some [Refs.albSg] /\
    read securityGroupsOf g Refs.wordpressService = Some [Refs.ecsSg] /\
    read securityGroupsOf g Refs.dbInstance = Some [Refs.dbSg] /\
    read ingressOf g Refs.albSg =
      Some [ {| ec2.peer := ec2.anyIpv4;
                ec2.connection := ec2.tcp 80;
                ec2.ruleDescription := "Allow HTTP traffic" |};
             {| ec2.peer := ec2.anyIpv4;
                ec2.connection := ec2.tcp 443;
                ec2.ruleDescription := "Allow HTTPS traffic" |} ] /\
    read ingressOf g Refs.ecsSg =
      Some [ {| ec2.peer := ec2.securityGroup Refs.albSg;
                ec2.connection := ec2.tcp 80;
                ec2.ruleDescription := "Allow traffic from ALB" |} ] /\
    read ingressOf g Refs.dbSg =
      Some [ {| ec2.peer := ec2.securityGroup Refs.ecsSg;
                ec2.connection := ec2.tcp 3306;
                ec2.ruleDescription := "Allow MySQL traffic from ECS" |} ].
Proof.
  construct_then_read.
  repeat split.
Qed.

(** C2, as the code stands: the container is wired to the database by
    host, database name and password.  WORDPRESS_DB_HOST is the endpoint
    address of the database instance, WORDPRESS_DB_NAME is its database name
    ['wordpress'], and WORDPRESS_DB_PASSWORD refers to the credential-store
    entry the database takes its credentials from.  WORDPRESS_DB_USER is the
    literal ['admin'], but the credentials were built from the entry alone:
    they were given no username, and the entry is generated without a
    template or key that would give it one.  So ['admin'] is not a username
    those credentials carry. *)
Theorem container_user_not_in_credentials :
  forall (Construct StackProps : Type) (scope : Construct) (id : string)
         (props : option StackProps),
  exists g db container mappings entry,
    WordpressThreeTierStack scope id props = Ok g /\
    construct g Refs.dbInstance = Some (DatabaseInstance db) /\
    construct g Refs.wordpressContainer = Some (ContainerDefinition container mappings) /\
    construct g (secretOf (rds.credentials db)) = Some (Secret entry) /\
    property "WORDPRESS_DB_HOST" (ecs.environment container) =
      Some (cdk.Token Refs.dbInstance cdk.dbInstanceEndpointAddress) /\
    property "WORDPRESS_DB_NAME" (ecs.environment container) =
      Some (cdk.Literal (rds.databaseName db)) /\
    rds.databaseName db = "wordpress" /\
    property "WORDPRESS_DB_PASSWORD" (ecs.secrets container) =
      Some (ecs.fromSecretsManager (secretOf (rds.credentials db))) /\
    property "WORDPRESS_DB_USER" (ecs.environment container) =
      Some (cdk.Literal "admin") /\
    usernameOf (rds.credentials db) = None /\
    secretsmanager.secretStringTemplate (secretsmanager.generateSecretString entry) = None /\
    secretsmanager.generateStringKey (secretsmanager.generateSecretString entry) = None /\
    usernameOf (rds.credentials db) <> Some "admin".
Proof.
  intros. do 5 eexists.
  split; [vm_compute; reflexivity|].
  split; [vm_compute; reflexivity|].
  split; [vm_compute; reflexivity|].
  split; [vm_compute; reflexivity|].
  repeat split. discriminate.
Qed.

(** C3, amended: the stack declares the three tiers and one virtual
    network.  There is one CDN distribution and its origin is the load
    balancer; one application load balancer, internet-facing, whose one
    listener is on port 80 and forwards to the target group the one Fargate
    service is attached to; one database instance, MySQL 8.0.  One virtual
    network is declared: the load balancer, the service (through its
    cluster) and the database are placed in it, and no construct names
    another.  The distribution is placed in no virtual network: it names
    none, and reaches the network only through its origin. *)
Theorem three_tiers_one_network :
  forall (Construct StackProps : Type) (scope : Construct) (id : string)
         (props : option StackProps),
  exists g,
    WordpressThreeTierStack scope id props = Ok g /\
    (* the CDN *)
    select isDistribution g = [Refs.distribution] /\
    read originOf g Refs.distribution = Some Refs.alb /\
    (* the load-balanced container service *)
    select isApplicationLoadBalancer g = [Refs.alb] /\
    isInternetFacing_at g Refs.alb = true /\
    select isApplicationListener g = [Refs.httpListener] /\
    childrenOf g Refs.alb = [Refs.httpListener] /\
    construct g Refs.httpListener =
      Some (ApplicationListener {| elbv2.port := 80; elbv2.open := true |}
                                (Some (elbv2.forward [Refs.targetGroup]))) /\
    select isApplicationTargetGroup g = [Refs.targetGroup] /\
    read targetsOf g Refs.targetGroup = Some [Refs.wordpressService] /\
    select isFargateService g = [Refs.wordpressService] /\
    (* the database *)
    select isDatabaseInstance g = [Refs.dbInstance] /\
    read engineOf g Refs.dbInstance = Some (rds.mysql rds.VER_8_0) /\
    (* the network *)
    select isVpc g = [Refs.vpc] /\
    networkOf g Refs.alb = Some Refs.vpc /\
    networkOf g Refs.wordpressService = Some Refs.vpc /\
    networkOf g Refs.dbInstance = Some Refs.vpc /\
    Forall (eq Refs.vpc) (networksNamed (constructs g)) /\
    read vpcOf g Refs.distribution = None /\
    networkOf g Refs.distribution = None.
Proof.
  construct_then_read.
  repeat match goal with |- _ /\ _ => split end; try reflexivity.
  vm_compute. repeat constructor.
Qed.

(** C3, as stated, fails on the distribution: the CDN tier is declared,
    and it is within no virtual network, so not within the one the stack
    declares. *)
Lemma distribution_in_no_network :
  exists g : Stack unit unit,
    WordpressThreeTierStack tt "WordpressStack" None = Ok g /\
    select isDistribution g = [Refs.distribution] /\
    select isVpc g = [Refs.vpc] /\
    networkOf g Refs.distribution = None /\
    networkOf g Refs.distribution <> Some Refs.vpc.
Proof.
  eexists. split; [vm_compute; reflexivity|].
  repeat split. discriminate.
Qed.

(** C4: the application and data tiers are private.  The container service
    and the database instance are both declared in private-with-egress
    subnets, the service's tasks get no public IP, and the load balancer is
    the only construct declared internet-facing. *)
Theorem private_application_and_data_tier :
  forall (Construct StackProps : Type) (scope : Construct) (id : string)
         (props : option StackProps),
  exists g,
    WordpressThreeTierStack scope id props = Ok g /\
    read subnetTypeOf g Refs.wordpressService = Some ec2.PRIVATE_WITH_EGRESS /\
    read subnetTypeOf g Refs.dbInstance = Some ec2.PRIVATE_WITH_EGRESS /\
    read assignPublicIpOf g Refs.wordpressService = Some false /\
    select isInternetFacing g = [Refs.alb].
Proof.
  construct_then_read.
  repeat split.
Qed.

(** C5: the stack has exactly three outputs, in this order: the DNS name
    of the load balancer, the domain name of the distribution and the
    endpoint address of the database instance; each is an attribute of a
    construct the stack declares. *)
Theorem three_outputs :
  forall (Construct StackProps : Type) (scope : Construct) (id : string)
         (props : option StackProps),
  exists g,
    WordpressThreeTierStack scope id props = Ok g /\
    outputsOf (constructs g) =
      [ (["LoadBalancerDNS"],
         {| cdk.value := cdk.Token Refs.alb cdk.loadBalancerDnsName;
            cdk.description := "ALB DNS Name" |});
        (["CloudFrontDomainName"],
         {| cdk.value := cdk.Token Refs.distribution cdk.distributionDomainName;
            cdk.description := "CloudFront Domain Name" |});
        (["DatabaseEndpoint"],
         {| cdk.value := cdk.Token Refs.dbInstance cdk.dbInstanceEndpointAddress;
            cdk.description := "RDS Database Endpoint" |}) ] /\
    length (select isCfnOutput g) = 3%nat /\
    forallb (fun o => isEndpointOf g (cdk.value (snd o))) (outputsOf (constructs g)) = true.
Proof.
  construct_then_read.
  repeat split.
Qed.

(** C6: the scaling thresholds.  Task-count scaling is enabled on the
    service with minimum capacity 2 and maximum capacity 10, so minimum <=
    maximum; the service's desired count is 2, within [minimum, maximum];
    one CPU-utilization policy is declared, with target 70 percent and
    scale-in and scale-out cooldowns of 60 seconds each. *)
Theorem scaling_thresholds :
  forall (Construct StackProps : Type) (scope : Construct) (id : string)
         (props : option StackProps),
  exists g service scaling policy,
    WordpressThreeTierStack scope id props = Ok g /\
    construct g Refs.wordpressService =
      Some (FargateService service (Some scaling) [("CpuScaling", policy)]) /\
    select isFargateService g = [Refs.wordpressService] /\
    ecs.minCapacity scaling = 2 /\
    ecs.maxCapacity scaling = 10 /\
    ecs.minCapacity scaling <= ecs.maxCapacity scaling /\
    ecs.desiredCount service = 2 /\
    ecs.minCapacity scaling <= ecs.desiredCount service <= ecs.maxCapacity scaling /\
    ecs.targetUtilizationPercent policy = 70 /\
    ecs.scaleInCooldown policy = cdk.seconds 60 /\
    ecs.scaleOutCooldown policy = cdk.seconds 60 /\
    cdk.toSeconds (ecs.scaleInCooldown policy) = 60 /\
    cdk.toSeconds (ecs.scaleOutCooldown policy) = 60.
Proof.
  intros. do 4 eexists.
  split; [vm_compute; reflexivity|].
  split; [vm_compute; reflexivity|].
  split; [reflexivity|].
  cbn. repeat split; lia.
Qed.

(** On arguments the base class accepts as they are, the constructor over
    it is the constructor above. *)
Lemma WordpressThreeTierStack_accepted {Construct StackProps : Type}
      (scope : Construct) (id : string) (props : option StackProps) :
  WordpressThreeTierStackOver (fun scope id props => Ok (super scope id props))
                              scope id props
  = WordpressThreeTierStack scope id props.
Proof.
  unfold WordpressThreeTierStackOver, WordpressThreeTierStack.
  destruct (declarations (super scope id props)) as [[[] g]|e]; reflexivity.
Qed.




(** C9: the distribution's default behavior.  Viewers are redirected to
    HTTPS (viewer protocol policy REDIRECT_TO_HTTPS), the origin is the
    load balancer and is contacted over HTTP only (origin protocol policy
    HTTP_ONLY), all HTTP methods are allowed and compression is enabled. *)
Theorem distribution_default_behavior :
  forall (Construct StackProps : Type) (scope : Construct) (id : string)
         (props : option StackProps),
  exists g distribution,
    WordpressThreeTierStack scope id props = Ok g /\
    construct g Refs.distribution = Some (Distribution distribution) /\
    select isApplicationLoadBalancer g = [Refs.alb] /\
    cloudfront.viewerProtocolPolicy (cloudfront.defaultBehavior distribution) =
      cloudfront.REDIRECT_TO_HTTPS /\
    cloudfront.origin (cloudfront.defaultBehavior distribution) =
      cloudfront.LoadBalancerV2Origin Refs.alb cloudfront.HTTP_ONLY /\
    cloudfront.allowedMethods (cloudfront.defaultBehavior distribution) =
      cloudfront.ALLOW_ALL /\
    cloudfront.compress (cloudfront.defaultBehavior distribution) = true.
Proof.
  intros. do 2 eexists.
  split; [vm_compute; reflexivity|].
  split; [vm_compute; reflexivity|].
  repeat split.
Qed.

(** C10: the database instance is declared with deletion protection
    disabled, storage encryption enabled and a backup retention of 7
    days. *)
Theorem database_protection_settings :
  forall (Construct StackProps : Type) (scope : Construct) (id : string)
         (props : option StackProps),
  exists g db,
    WordpressThreeTierStack scope id props = Ok g /\
    construct g Refs.dbInstance = Some (DatabaseInstance db) /\
    rds.deletionProtection db = false /\
    rds.storageEncrypted db = true /\
    rds.backupRetention db = cdk.days 7.
Proof.
  intros. do 2 eexists.
  split; [vm_compute; reflexivity|].
  split; [vm_compute; reflexivity|].
  repeat split.
Qed.


(** ** Well-formedness of the declared graph *)

Lemma resolves_found (earlier : Constructs) (target : Ref) (kind : Resource -> bool) :
  resolves earlier (target, kind) = true ->
  exists t, findConstruct target earlier = Some t /\ kind t = true.
Proof.
  unfold resolves; simpl.
  destruct (findConstruct target earlier) as [t|]; [|discriminate].
  intros H. exists t. split; [reflexivity | assumption].
Qed.

(** Every reference resolves.  Whatever a construct of the returned stack
    refers to (its network, security groups, ingress peers, secret,
    cluster, task definition, task role, targets, target groups, origin, or
    the construct whose attribute it reads) is a construct the stack
    declares, and of the kind the referring property takes: no reference
    dangles. *)
Theorem references_resolve :
  forall (Construct StackProps : Type) (scope : Construct) (id : string)
         (props : option StackProps),
  exists g,
    WordpressThreeTierStack scope id props = Ok g /\
    forall r res target kind,
      In (r, res) (constructs g) ->
      In (target, kind) (references res) ->
      exists t, construct g target = Some t /\ kind t = true.
Proof.
  construct_then_read.
  unfold construct.
  match goal with |- context [constructs ?G] => set (cs := constructs G) end.
  assert (forallb (fun c => referencesResolve cs (fst c) (snd c)) cs = true) as H
    by (vm_compute; reflexivity).
  rewrite forallb_forall in H.
  intros r res target kind Hin Href.
  apply resolves_found.
  specialize (H _ Hin). unfold referencesResolve in H; simpl in H.
  rewrite forallb_forall in H. exact (H _ Href).
Qed.


(** The database password reaches the container as a secret only.  The
    container's environment has the keys WORDPRESS_DB_HOST,
    WORDPRESS_DB_NAME and WORDPRESS_DB_USER; WORDPRESS_DB_PASSWORD is a key
    of its secrets and of nothing else, and no key of the secrets is also a
    key of the environment. *)
Theorem password_only_as_secret :
  forall (Construct StackProps : Type) (scope : Construct) (id : string)
         (props : option StackProps),
  exists g container mappings,
    WordpressThreeTierStack scope id props = Ok g /\
    construct g Refs.wordpressContainer = Some (ContainerDefinition container mappings) /\
    map fst (ecs.environment container) =
      ["WORDPRESS_DB_HOST"; "WORDPRESS_DB_NAME"; "WORDPRESS_DB_USER"] /\
    map fst (ecs.secrets container) = ["WORDPRESS_DB_PASSWORD"] /\
    property "WORDPRESS_DB_PASSWORD" (ecs.environment container) = None /\
    forall key,
      In key (map fst (ecs.secrets container)) ->
      property key (ecs.environment container) = None.
Proof.
  intros. do 3 eexists.
  split; [vm_compute; reflexivity|].
  split; [vm_compute; reflexivity|].
  cbn. repeat split.
  intros key [<- | []]. reflexivity.
Qed.

(** What the service runs.  The service's task definition is the one the
    container is declared under, and that container is the only one; the
    task definition's role is a declared role that the ECS tasks service
    principal may assume; the service's cluster is a declared cluster. *)
Theorem service_runs_the_container :
  forall (Construct StackProps : Type) (scope : Construct) (id : string)
         (props : option StackProps),
  exists g service scaling policies definition container mappings role cluster,
    WordpressThreeTierStack scope id props = Ok g /\
    construct g Refs.wordpressService = Some (FargateService service scaling policies) /\
    construct g (ecs.taskDefinition service) = Some (FargateTaskDefinition definition) /\
    childrenOf g (ecs.taskDefinition service) = [Refs.wordpressContainer] /\
    construct g Refs.wordpressContainer = Some (ContainerDefinition container mappings) /\
    ecs.image container = ecs.fromRegistry "wordpress:latest" /\
    construct g (ecs.taskRole definition) = Some (Role role) /\
    iam.assumedBy role = iam.ServicePrincipal "ecs-tasks.amazonaws.com" /\
    construct g (ecs.cluster service) = Some (Cluster cluster).
Proof.
  intros. do 9 eexists.
  split; [vm_compute; reflexivity|].
  split; [vm_compute; reflexivity|].
  split; [vm_compute; reflexivity|].
  split; [vm_compute; reflexivity|].
  split; [vm_compute; reflexivity|].
  split; [reflexivity|].
  split; [vm_compute; reflexivity|].
  split; [reflexivity|].
  vm_compute; reflexivity.
Qed.

(** Egress for the private tiers.  The network the service and the
    database are placed in is declared with at least one NAT gateway, and
    with no more NAT gateways than availability zones; both placements
    select its private-with-egress subnets. *)
Theorem private_subnets_have_egress :
  forall (Construct StackProps : Type) (scope : Construct) (id : string)
         (props : option StackProps),
  exists g network vpc,
    WordpressThreeTierStack scope id props = Ok g /\
    networkOf g Refs.wordpressService = Some network /\
    networkOf g Refs.dbInstance = Some network /\
    construct g network = Some (Vpc vpc) /\
    1 <= ec2.natGateways vpc <= ec2.maxAzs vpc /\
    read subnetTypeOf g Refs.wordpressService = Some ec2.PRIVATE_WITH_EGRESS /\
    read subnetTypeOf g Refs.dbInstance = Some ec2.PRIVATE_WITH_EGRESS.
Proof.
  intros. do 3 eexists.
  split; [vm_compute; reflexivity|].
  split; [vm_compute; reflexivity|].
  split; [vm_compute; reflexivity|].
  split; [vm_compute; reflexivity|].
  cbn. repeat split; lia.
Qed.
